(** * The aequilibrae example script (main.py): worker and launcher

    The script drives a third-party library through a fixed sequence of
    calls inside a child process.  The library is a black box: it is a
    parameter of the model, an oracle that answers every operation the
    script performs on it, either with a value or with an exception.  The
    script itself is embedded as a program in a small state-and-exception
    monad whose state is the log of library operations performed so far
    and the lines printed on standard output. *)

From Stdlib Require Import String Ascii List ZArith NArith QArith Bool Lia.
Import ListNotations.
Set Warnings "-register-all".
Close Scope Q_scope.
Open Scope string_scope.
Open Scope list_scope.

(** ** Python values that the script handles *)

(** A pure path, as a list of parts.  [Path s] wraps a directory name and
    [p / name] appends one part; the right operands of [/] in the script are
    a literal and a string of hexadecimal digits, both relative and free of
    separators, which is the case in which pathlib appends one part. *)
Definition path := list string.

Definition Path (s : string) : path := [s].

Definition truediv (p : path) (name : string) : path := p ++ [name].

(** The float literal of the script is carried as the rational its source
    text denotes; the script does no arithmetic on it. *)
Inductive pyval : Type :=
| VNone
| VBool (b : bool)
| VInt (z : Z)
| VFloat (q : Q)
| VStr (s : string)
| VList (l : list pyval)
| VDict (d : list (string * pyval))
| VPath (p : path)
| VObj (h : nat).

Inductive exn : Type :=
| Exn (type : string) (msg : string).

(** ** Operations on the external library *)

Definition kwargs := list (string * pyval).

Inductive op : Type :=
| Call (f : string) (args : list pyval) (kw : kwargs)
| Method (self : pyval) (m : string) (args : list pyval) (kw : kwargs)
| GetAttr (self : pyval) (a : string)
| SetAttr (self : pyval) (a : string) (v : pyval)
| GetItem (self : pyval) (k : pyval).

Inductive outcome : Type :=
| Returns (v : pyval)
| Raises (e : exn).

Definition log := list (op * outcome).

(** The library answers an operation knowing everything that was done to it
    before. *)
Definition library := log -> op -> outcome.

(** ** The state-and-exception monad of a Python process *)

Record world : Type := mkWorld {
  calls : log;
  stdout : list pyval
}.

Inductive result (A : Type) : Type :=
| Ok (a : A)
| Err (e : exn).
Arguments Ok {A} a.
Arguments Err {A} e.

Definition M (S A : Type) : Type := S -> result A * S.

Definition ret {S A} (a : A) : M S A := fun w => (Ok a, w).

Definition bind {S A B} (c : M S A) (k : A -> M S B) : M S B :=
  fun w =>
    match c w with
    | (Ok a, w') => k a w'
    | (Err e, w') => (Err e, w')
    end.

Declare Scope py_scope.
Delimit Scope py_scope with py.
Notation "x <- c ;; k" := (bind c (fun x => k))
  (at level 100, c at next level, right associativity) : py_scope.
Notation "c ;;; k" := (bind c (fun _ => k))
  (at level 100, right associativity) : py_scope.

(** A pure computation that may raise, run inside a process. *)
Definition lift {S A} (r : result A) : M S A := fun w => (r, w).

Definition print (v : pyval) : M world unit :=
  fun w => (Ok tt, mkWorld (calls w) (stdout w ++ [v])).

Definition record (w : world) (o : op) (r : outcome) : world :=
  mkWorld (calls w ++ [(o, r)]) (stdout w).

(** ** Standard-library helpers of the script *)

(** [uuid4()] yields a UUID, whose integer is below 2^128 (the class
    refuses any other); [.hex] is that integer written with 32 lower-case
    hexadecimal digits. *)
Record UUID : Type := mkUUID {
  int : N;
  int_bound : (int < 2 ^ 128)%N
}.

Definition hex_digit (d : N) : ascii :=
  match d with
  | 0%N => "0" | 1%N => "1" | 2%N => "2" | 3%N => "3"
  | 4%N => "4" | 5%N => "5" | 6%N => "6" | 7%N => "7"
  | 8%N => "8" | 9%N => "9" | 10%N => "a" | 11%N => "b"
  | 12%N => "c" | 13%N => "d" | 14%N => "e" | _ => "f"
  end%char.

(** The [k] low hexadecimal digits of [n], most significant first. *)
Fixpoint hex_digits (k : nat) (n : N) : list ascii :=
  match k with
  | O => []
  | S k' => hex_digits k' (n / 16) ++ [hex_digit (n mod 16)]
  end.

Definition hex (u : UUID) : string :=
  string_of_list_ascii (hex_digits 32 (int u)).

(** ** The worker *)

Section Worker.

Variable lib : library.
  (** What [gettempdir()] and [uuid4()] return in this run. *)
Variable tempdir : string.
Variable uuid : UUID.

  (** One operation on the library: the answer is logged; an exception
      leaves the program. *)
Definition perform (o : op) : M world pyval :=
    fun w =>
      match lib (calls w) o with
      | Returns v => (Ok v, record w o (Returns v))
      | Raises e => (Err e, record w o (Raises e))
      end.

Definition fldr : path :=
    truediv (truediv (Path tempdir) "aequilibrae") (hex uuid).

Definition worker : M world unit :=
    (project <- perform (Call "create_example" [VPath fldr; VStr "sioux_falls"] []) ;;
     network <- perform (GetAttr project "network") ;;
     perform (Method network "build_graphs" [] []) ;;;
     network <- perform (GetAttr project "network") ;;
     graphs <- perform (GetAttr network "graphs") ;;
     graph <- perform (GetItem graphs (VStr "c")) ;;
     perform (Method graph "set_graph" [VStr "free_flow_time"] []) ;;;
     perform (Method graph "set_blocked_centroid_flows" [VBool false] []) ;;;
     proj_matrices <- perform (GetAttr project "matrices") ;;
     perform (Method proj_matrices "list" [] []) ;;;
     demand <- perform (Method proj_matrices "get_matrix" [VStr "demand_omx"] []) ;;
     perform (Method demand "computational_view" [VList [VStr "matrix"]] []) ;;;
     assigclass <- perform (Call "TrafficClass" []
                     [("name", VStr "car"); ("graph", graph); ("matrix", demand)]) ;;
     assig <- perform (Call "TrafficAssignment" [] []) ;;
     perform (Method assig "add_class" [assigclass] []) ;;;
     perform (Method assig "set_vdf" [VStr "BPR"] []) ;;;
     perform (Method assig "set_vdf_parameters"
                [VDict [("alpha", VStr "b"); ("beta", VStr "power")]] []) ;;;
     perform (Method assig "set_capacity_field" [VStr "capacity"] []) ;;;
     perform (Method assig "set_time_field" [VStr "free_flow_time"] []) ;;;
     perform (Method assig "set_algorithm" [VStr "bfw"] []) ;;;
     perform (SetAttr assig "max_iter" (VInt 10)) ;;;
     perform (SetAttr assig "rgap_target" (VFloat (1 # 100)%Q)) ;;;
     perform (Method assig "execute" [] []) ;;;
     skims <- perform (Method assig "skim_congested" [VList [VStr "distance"]]
                         [("return_matrices", VBool true)]) ;;
     car <- perform (GetItem skims (VStr "car")) ;;
     names <- perform (GetAttr car "names") ;;
     print names ;;;
     perform (Method assig "save_skims" [VStr "base_year_assignment_skims"]
                [("which_ones", VStr "final"); ("format", VStr "omx")]) ;;;
     perform (Method project "close" [] []) ;;;
     print (VStr "Worker done"))%py.

End Worker.

(** ** The launcher *)

(** The multiprocessing module, as far as the script uses it.  A platform
    has a default start method and a table of start methods it offers;
    [get_context(None)] is the default context, [get_context(name)] looks the
    name up in the table and raises ValueError when it is absent. *)
Record platform : Type := mkPlatform {
  default_method : string;
  concrete_contexts : list string
}.

Inductive context : Type :=
| Context (method : string).

Definition context_method (c : context) : string :=
  match c with Context m => m end.

Definition get_start_method (p : platform) : string := default_method p.

Definition get_context (p : platform) (method : option string) : result context :=
  match method with
  | None => Ok (Context (default_method p))
  | Some m =>
      if existsb (String.eqb m) (concrete_contexts p)
      then Ok (Context m)
      else Err (Exn "ValueError" ("cannot find context for '" ++ m ++ "'"))
  end.

(** Python's [x or y] on an optional string: [None] and the empty string
    are false. *)
Definition truthy (x : option string) : bool :=
  match x with
  | None => false
  | Some s => negb (String.eqb s "")
  end.

Definition or_none (x : option string) : option string :=
  if truthy x then x else None.

Definition or_str (x : option string) (y : string) : string :=
  match x with
  | Some s => if truthy x then s else y
  | None => y
  end.

(** A process object: the context that made it, what its child did once it
    was started (how the target ended and the child's final state), and
    whether the child has been waited for.  The exit code that
    multiprocessing derives from the child's end is not modelled: the script
    never reads it. *)
Record process : Type := mkProcess {
  pcontext : context;
  target : M world unit;
  child : option (result unit * world);
  joined : bool
}.

(** The launching process: the console (which the child inherits) and the
    process objects it created, addressed by their position. *)
Record host : Type := mkHost {
  console : list pyval;
  processes : list process
}.

Definition hprint (v : pyval) : M host unit :=
  fun h => (Ok tt, mkHost (console h ++ [v]) (processes h)).

Definition new_process (c : context) (t : M world unit) : M host nat :=
  fun h => (Ok (length (processes h)),
            mkHost (console h) (processes h ++ [mkProcess c t None false])).

Fixpoint update_nth {A} (n : nat) (f : A -> A) (l : list A) : list A :=
  match l, n with
  | [], _ => []
  | x :: l', O => f x :: l'
  | x :: l', S n' => x :: update_nth n' f l'
  end.

(** [start] runs the target in a child with a library of its own (an empty
    log) on the parent's console; the parent prints nothing between [start]
    and [join], so the child's lines are placed at [start]. *)
Definition start (pid : nat) : M host unit :=
  fun h =>
    match nth_error (processes h) pid with
    | None => (Err (Exn "AssertionError" "no such process"), h)
    | Some p =>
        let '(r, w) := target p (mkWorld [] (console h)) in
        (Ok tt,
         mkHost (stdout w)
                (update_nth pid
                   (fun p => mkProcess (pcontext p) (target p) (Some (r, w)) (joined p))
                   (processes h)))
    end.

(** [join] waits for the child of a started process and marks the process
    object as joined; it returns None however the child ended. *)
Definition join (pid : nat) : M host unit :=
  fun h =>
    match nth_error (processes h) pid with
    | None => (Err (Exn "AssertionError" "no such process"), h)
    | Some p =>
        match child p with
        | None => (Err (Exn "AssertionError" "can only join a started process"), h)
        | Some _ =>
            (Ok tt,
             mkHost (console h)
                    (update_nth pid
                       (fun p => mkProcess (pcontext p) (target p) (child p) true)
                       (processes h)))
        end
    end.

Section Main.

Variable plat : platform.
Variable environ : string -> option string.
  (** The child's library, temporary directory and UUID draw. *)
Variable lib : library.
Variable tempdir : string.
Variable uuid : UUID.

Definition main : M host unit :=
    (let start_method := or_none (environ "MULTIPROCESSING_START_METHOD") in
     let default_start_method := get_start_method plat in
     hprint (VStr ("Using start method " ++
                   or_str start_method (default_start_method ++ " (default)"))) ;;;
     context <- lift (get_context plat start_method) ;;
     process <- new_process context (worker lib tempdir uuid) ;;
     start process ;;;
     join process ;;;
     hprint (VStr "All done!"))%py.

End Main.

Definition fresh_host : host := mkHost [] [].

(** A run of the worker in a process whose standard output already holds
    [out]. *)
Definition run_worker (lib : library) (tempdir : string) (uuid : UUID)
  (out : list pyval) : result unit * world :=
  worker lib tempdir uuid (mkWorld [] out).

(** ** Observing a run *)

Definition performed (w : world) : list op := map fst (calls w).

Definition is_call (name : string) (o : op) : bool :=
  match o with Call f _ _ => String.eqb f name | _ => false end.

Definition is_method (name : string) (o : op) : bool :=
  match o with Method _ m _ _ => String.eqb m name | _ => false end.

Definition is_setattr (name : string) (o : op) : bool :=
  match o with SetAttr _ a _ => String.eqb a name | _ => false end.

(** The name an operation goes by: function, method, attribute or key. *)
Definition op_name (o : op) : string :=
  match o with
  | Call f _ _ => f
  | Method _ m _ _ => m
  | GetAttr _ a => a
  | SetAttr _ a _ => a
  | GetItem _ (VStr k) => k
  | GetItem _ _ => ""
  end.

Definition occurrences (p : op -> bool) (l : list op) : nat :=
  length (filter p l).

(** The operations strictly before the first one that satisfies [p] (all of
    them when there is none), and those strictly after it. *)
Fixpoint before (p : op -> bool) (l : list op) : list op :=
  match l with
  | [] => []
  | o :: l' => if p o then [] else o :: before p l'
  end.

Fixpoint after (p : op -> bool) (l : list op) : list op :=
  match l with
  | [] => []
  | o :: l' => if p o then l' else after p l'
  end.

(** Every logged answer is the one the library gave at that point. *)
Fixpoint faithful (lib : library) (pre l : log) : Prop :=
  match l with
  | [] => True
  | (o, r) :: l' => lib pre o = r /\ faithful lib (pre ++ [(o, r)]) l'
  end.

(** ** The straight-line form of the worker

    [script] lists the operations of the worker in order, the receiver of
    each being the value an earlier operation returned ([rv i] is the value
    returned by operation number [i], counted from 0). *)
Section Script.

  (** The project directory, and the values returned. *)
Variable dir : path.
Variable rv : nat -> pyval.

Definition script : list op :=
    [ Call "create_example" [VPath dir; VStr "sioux_falls"] [];
      GetAttr (rv 0) "network";
      Method (rv 1) "build_graphs" [] [];
      GetAttr (rv 0) "network";
      GetAttr (rv 3) "graphs";
      GetItem (rv 4) (VStr "c");
      Method (rv 5) "set_graph" [VStr "free_flow_time"] [];
      Method (rv 5) "set_blocked_centroid_flows" [VBool false] [];
      GetAttr (rv 0) "matrices";
      Method (rv 8) "list" [] [];
      Method (rv 8) "get_matrix" [VStr "demand_omx"] [];
      Method (rv 10) "computational_view" [VList [VStr "matrix"]] [];
      Call "TrafficClass" []
        [("name", VStr "car"); ("graph", rv 5); ("matrix", rv 10)];
      Call "TrafficAssignment" [] [];
      Method (rv 13) "add_class" [rv 12] [];
      Method (rv 13) "set_vdf" [VStr "BPR"] [];
      Method (rv 13) "set_vdf_parameters"
        [VDict [("alpha", VStr "b"); ("beta", VStr "power")]] [];
      Method (rv 13) "set_capacity_field" [VStr "capacity"] [];
      Method (rv 13) "set_time_field" [VStr "free_flow_time"] [];
      Method (rv 13) "set_algorithm" [VStr "bfw"] [];
      SetAttr (rv 13) "max_iter" (VInt 10);
      SetAttr (rv 13) "rgap_target" (VFloat (1 # 100)%Q);
      Method (rv 13) "execute" [] [];
      Method (rv 13) "skim_congested" [VList [VStr "distance"]]
        [("return_matrices", VBool true)];
      GetItem (rv 23) (VStr "car");
      GetAttr (rv 24) "names";
      Method (rv 13) "save_skims" [VStr "base_year_assignment_skims"]
        [("which_ones", VStr "final"); ("format", VStr "omx")];
      Method (rv 0) "close" [] [] ].

  (** The log of the first [n] operations, all of which returned. *)
Definition answered (n : nat) : log :=
    combine (firstn n script) (map (fun i => Returns (rv i)) (seq 0 n)).

Definition no_op : op := Call "" [] [].

End Script.

(** The two shapes a run of the worker can have: all 28 operations
    returned, or the first [n] returned and the library raised in the
    next one. *)
Inductive run_shape (lib : library) (dir : path) (out : list pyval) : result unit * world -> Prop :=
| completed (rv : nat -> pyval) :
    run_shape lib dir out
      (Ok tt, mkWorld (answered dir rv 28)
                      ((out ++ [rv 25]) ++ [VStr "Worker done"]))
| aborted (rv : nat -> pyval) (n : nat) (e : exn) :
    n < 28 ->
    lib (answered dir rv n) (nth n (script dir rv) no_op)
      = Raises e ->
    run_shape lib dir out
      (Err e, mkWorld (answered dir rv n ++
                         [(nth n (script dir rv) no_op, Raises e)])
                      (if (26 <=? n)%nat then out ++ [rv 25] else out)).

(** The values that the operations of a log returned, in order. *)
Definition returned (l : log) : list pyval :=
  flat_map (fun x => match snd x with Returns v => [v] | Raises _ => [] end) l.

Ltac library_answers :=
  repeat match goal with
  | |- context [match ?l ?h ?o with Returns _ => _ | Raises _ => _ end] =>
      let E := fresh "E" in
      destruct (l h o) eqn:E; cbn [calls stdout fst snd]
  end.

(** ** Observations, auxiliary notions and concrete inputs *)

(** A program keeps the log faithful when every state it reaches from a
    faithful log has a faithful log. *)
Definition keeps_faithful {A} (lib : library) (c : M world A) : Prop :=
  forall w, faithful lib [] (calls w) -> faithful lib [] (calls (snd (c w))).

(** Reading hexadecimal digits back, to show that [hex] loses nothing. *)
Definition hex_value (c : ascii) : N :=
  match c with
  | "0" => 0 | "1" => 1 | "2" => 2 | "3" => 3
  | "4" => 4 | "5" => 5 | "6" => 6 | "7" => 7
  | "8" => 8 | "9" => 9 | "a" => 10 | "b" => 11
  | "c" => 12 | "d" => 13 | "e" => 14 | _ => 15
  end%char%N.

Definition parse_hex (l : list ascii) : N :=
  fold_left (fun acc c => (acc * 16 + hex_value c)%N) l 0%N.

(** A library in which every operation returns a fresh object. *)
Definition obliging : library := fun h _ => Returns (VObj (length h)).

(** A library whose first [n] operations return and whose next one raises. *)
Definition raising_at (n : nat) (e : exn) : library :=
  fun h _ => if (length h <? n)%nat then Returns (VObj (length h)) else Raises e.

(** Exceptions and UUID draws used in concrete runs. *)
Definition disk_full : exn := Exn "OSError" "No space left on device".

Definition uuid0 : UUID :=
  mkUUID 0x12345678123446788234567812345678%N eq_refl.

Definition uuid1 : UUID :=
  mkUUID 0x9f86d081884c4d659a2feaa0c55ad015%N eq_refl.

(** The run was ended by an exception that the library raised in one of the
    first [k] operations (the operations before it all returned), and the
    worker performed nothing after it. *)
Definition library_raised_within (lib : library) (k : nat)
  (rw : result unit * world) : Prop :=
  exists e pre o,
    fst rw = Err e /\
    calls (snd rw) = pre ++ [(o, Raises e)] /\
    lib pre o = Raises e /\
    length pre < k.

(** The seven configuration calls of the assignment, as selectors. *)
Definition configuration_calls : list (op -> bool) :=
  [ is_method "set_vdf"; is_method "set_vdf_parameters";
    is_method "set_capacity_field"; is_method "set_time_field";
    is_method "set_algorithm"; is_setattr "max_iter";
    is_setattr "rgap_target" ].

Definition is_execute : op -> bool := is_method "execute".

Definition save_skims_call (assig : pyval) : op :=
  Method assig "save_skims" [VStr "base_year_assignment_skims"]
    [("which_ones", VStr "final"); ("format", VStr "omx")].

(** Operation [o] was performed and returned [v]. *)
Definition returned_by (l : log) (o : op) (v : pyval) : Prop :=
  In (o, Returns v) l.

(** The operation selected by [sel] is performed exactly once, and is [o] --
    unless the library raised in one of the [k] operations before it, in
    which case it is not performed at all. *)
Definition once_unless_raised (lib : library) (rw : result unit * world)
  (k : nat) (sel : op -> bool) (o : op) : Prop :=
  (library_raised_within lib k rw /\ filter sel (performed (snd rw)) = []) \/
  filter sel (performed (snd rw)) = [o].

(** [assig] is the object that TrafficAssignment() returned, and the traffic
    class named "car" that was built on [graph] and [demand] -- the object
    [class] that TrafficClass returned -- was added to it. *)
Definition assignment_of_class (rw : result unit * world)
  (graph demand class assig : pyval) : Prop :=
  returned_by (calls (snd rw)) (Call "TrafficAssignment" [] []) assig /\
  returned_by (calls (snd rw))
    (Call "TrafficClass" []
       [("name", VStr "car"); ("graph", graph); ("matrix", demand)]) class /\
  In (Method assig "add_class" [class] []) (performed (snd rw)).

Definition key_error : exn := Exn "KeyError" "c".

Definition build_failure : exn :=
  Exn "RuntimeError" "could not build the graphs".

Definition assignment_failure : exn :=
  Exn "ValueError" "assignment did not converge".

(** Modelled from the spec: the library's effect on the file system, which
    is not part of the script.  A [create_example] that returns has created
    the project directory it was given; none of the operations that the
    script performs on the library removes a directory. *)
Definition created_dir (x : op * outcome) : list path :=
  match x with
  | (Call f (VPath d :: _) _, Returns _) =>
      if String.eqb f "create_example" then [d] else []
  | _ => []
  end.

Definition on_disk (l : log) : list path := flat_map created_dir l.

(** The environment variable that the launcher reads. *)
Definition start_method_variable : string := "MULTIPROCESSING_START_METHOD".

(** The line that the launcher prints first. *)
Definition notice (plat : platform) (v : option string) : pyval :=
  VStr ("Using start method " ++
        or_str (or_none v) (get_start_method plat ++ " (default)")).

(** A platform with three start methods, "spawn" being the default. *)
Definition macos : platform := mkPlatform "spawn" ["fork"; "spawn"; "forkserver"].

(** An environment in which only the start-method variable may be set. *)
Definition environ_with (v : option string) : string -> option string :=
  fun name => if String.eqb name start_method_variable then v else None.

(** ** Notions for the order and the wiring of the operations *)

(** The names of the worker's operations, in the order of the source. *)
Definition operation_names : list string :=
  [ "create_example"; "network"; "build_graphs"; "network"; "graphs"; "c";
    "set_graph"; "set_blocked_centroid_flows"; "matrices"; "list";
    "get_matrix"; "computational_view"; "TrafficClass"; "TrafficAssignment";
    "add_class"; "set_vdf"; "set_vdf_parameters"; "set_capacity_field";
    "set_time_field"; "set_algorithm"; "max_iter"; "rgap_target"; "execute";
    "skim_congested"; "car"; "names"; "save_skims"; "close" ].

Definition named_in (names : list string) (m : string) : bool :=
  existsb (String.eqb m) names.

Definition graph_methods : list string :=
  [ "set_graph"; "set_blocked_centroid_flows" ].

Definition matrices_methods : list string := [ "list"; "get_matrix" ].

Definition assignment_methods : list string :=
  [ "set_vdf"; "set_vdf_parameters"; "set_capacity_field"; "set_time_field";
    "set_algorithm"; "execute"; "skim_congested"; "save_skims" ].

(** The objects of a run: what the worker calls project, proj_matrices,
    graph, demand, assigclass and assig. *)
Record objects : Type := mkObjects {
  the_project : pyval;
  the_matrices : pyval;
  the_graph : pyval;
  the_demand : pyval;
  the_class : pyval;
  the_assignment : pyval
}.

(** Where an operation returns one of the objects of the run, it is that
    object. *)
Definition produces (obj : objects) (x : op * outcome) : Prop :=
  match x with
  | (Call f _ _, Returns v) =>
      if String.eqb f "create_example" then v = the_project obj
      else if String.eqb f "TrafficClass" then v = the_class obj
      else if String.eqb f "TrafficAssignment" then v = the_assignment obj
      else True
  | (GetAttr self a, Returns v) =>
      if String.eqb a "matrices"
      then self = the_project obj /\ v = the_matrices obj
      else True
  | (GetItem _ (VStr k), Returns v) =>
      if String.eqb k "c" then v = the_graph obj else True
  | (Method _ m _ _, Returns v) =>
      if String.eqb m "get_matrix" then v = the_demand obj else True
  | _ => True
  end.

(** An operation that works on one of the objects of the run has that
    object as its receiver or argument. *)
Definition uses (obj : objects) (o : op) : Prop :=
  match o with
  | Method self m args _ =>
      if named_in graph_methods m then self = the_graph obj
      else if named_in matrices_methods m then self = the_matrices obj
      else if String.eqb m "computational_view" then self = the_demand obj
      else if String.eqb m "add_class"
           then self = the_assignment obj /\ args = [the_class obj]
      else if named_in assignment_methods m then self = the_assignment obj
      else if String.eqb m "close" then self = the_project obj
      else True
  | SetAttr self _ _ => self = the_assignment obj
  | Call f _ kw =>
      if String.eqb f "TrafficClass"
      then kw = [ ("name", VStr "car"); ("graph", the_graph obj);
                  ("matrix", the_demand obj) ]
      else True
  | _ => True
  end.

(** [names] is what the run read as skims["car"].names: [skims] is what
    skim_congested returned for the "distance" skim, [car] its item "car",
    and [names] the attribute "names" of that. *)
Definition printed_names (rw : result unit * world)
  (assig skims car names : pyval) : Prop :=
  returned_by (calls (snd rw))
    (Method assig "skim_congested" [VList [VStr "distance"]]
       [("return_matrices", VBool true)]) skims /\
  returned_by (calls (snd rw)) (GetItem skims (VStr "car")) car /\
  returned_by (calls (snd rw)) (GetAttr car "names") names.

(** [P] holds of every element, as a conjunction. *)
Fixpoint every {A} (P : A -> Prop) (l : list A) : Prop :=
  match l with
  | [] => True
  | x :: l' => P x /\ every P l'
  end.

(** * Properties *)

Lemma worker_run_shape (lib : library) tempdir uuid out :
  run_shape lib (fldr tempdir uuid) out (worker lib tempdir uuid (mkWorld [] out)).
Proof.
  unfold worker, bind, perform, print, record. cbn [calls stdout].
  library_answers;
  match goal with
  | |- run_shape _ _ _ (Ok _, mkWorld ?l _) =>
      let vs := eval cbn in (returned l) in
      exact (completed lib (fldr tempdir uuid) out (fun i => nth i vs VNone))
  | E : _ = Raises ?e |- run_shape _ _ _ (Err ?e, mkWorld ?l _) =>
      let vs := eval cbn in (returned l) in
      let n := eval cbn in (length vs) in
      refine (aborted lib (fldr tempdir uuid) out (fun i => nth i vs VNone) n e _ E);
      cbn; lia
  end.
Qed.

Lemma faithful_app (lib : library) (l1 : log) :
  forall pre l2,
    faithful lib pre (l1 ++ l2) <->
    faithful lib pre l1 /\ faithful lib (pre ++ l1) l2.
Proof.
  induction l1 as [|[o r] l1 IH]; intros pre l2; cbn [app faithful].
  - rewrite app_nil_r. tauto.
  - rewrite IH, <- app_assoc. cbn [app]. tauto.
Qed.

Lemma perform_keeps_faithful (lib : library) (o : op) :
  keeps_faithful lib (perform lib o).
Proof.
  intros w H. unfold perform.
  destruct (lib (calls w) o) eqn:E; cbn [snd record calls];
    apply faithful_app; (split; [exact H|]); cbn; auto.
Qed.

Lemma print_keeps_faithful (lib : library) (v : pyval) :
  keeps_faithful lib (print v).
Proof. intros w H. exact H. Qed.

Lemma bind_keeps_faithful {A B} (lib : library) (c : M world A) (k : A -> M world B) :
  keeps_faithful lib c -> (forall a, keeps_faithful lib (k a)) ->
  keeps_faithful lib (bind c k).
Proof.
  intros Hc Hk w H. unfold bind.
  specialize (Hc w H). destruct (c w) as [[a|e] w']; cbn [snd] in *.
  - apply Hk, Hc.
  - exact Hc.
Qed.

Lemma worker_faithful (lib : library) tempdir uuid out :
  faithful lib [] (calls (snd (worker lib tempdir uuid (mkWorld [] out)))).
Proof.
  assert (H : keeps_faithful lib (worker lib tempdir uuid)).
  { unfold worker.
    repeat first [ apply bind_keeps_faithful; [|intros ?]
                 | apply perform_keeps_faithful
                 | apply print_keeps_faithful ]. }
  apply H. exact I.
Qed.

(** ** Hexadecimal identifiers determine the integer *)

Lemma hex_value_digit (d : N) : (d < 16)%N -> hex_value (hex_digit d) = d.
Proof.
  intros H.
  destruct d as [|p]; [reflexivity|].
  do 4 (destruct p as [p|p|]; try reflexivity); lia.
Qed.

Lemma parse_hex_digits (k : nat) :
  forall n, parse_hex (hex_digits k n) = (n mod 16 ^ N.of_nat k)%N.
Proof.
  induction k as [|k IH]; intros n.
  - cbn. now rewrite N.mod_1_r.
  - cbn [hex_digits]. unfold parse_hex in *.
    rewrite fold_left_app. cbn [fold_left].
    rewrite IH, hex_value_digit by (apply N.mod_lt; lia).
    rewrite Nnat.Nat2N.inj_succ, N.pow_succ_r'.
    rewrite N.Div0.mod_mul_r. lia.
Qed.

Lemma hex_injective (u1 u2 : UUID) : hex u1 = hex u2 -> int u1 = int u2.
Proof.
  unfold hex. intros H.
  apply (f_equal list_ascii_of_string) in H.
  rewrite !list_ascii_of_string_of_list_ascii in H.
  apply (f_equal parse_hex) in H.
  rewrite !parse_hex_digits in H.
  change (16 ^ N.of_nat 32)%N with (2 ^ 128)%N in H.
  rewrite !N.mod_small in H by apply int_bound.
  exact H.
Qed.

(** ** Case analysis on the runs of the worker *)

Ltac worker_runs lib tempdir uuid out rv n e Hn :=
  let H := fresh "H" in
  unfold run_worker;
  pose proof (worker_run_shape lib tempdir uuid out) as H;
  destruct (worker lib tempdir uuid (mkWorld [] out)) as [? ?];
  generalize dependent (fldr tempdir uuid); intros dir H;
  inversion H as [rv | rv n e Hn Hraise]; subst; clear H.

Ltac each_abort n tac :=
  do 28 (destruct n as [|n]; [ tac | ]); exfalso; lia.

Ltac raised_here :=
  match goal with
  | Hraise : _ (answered ?d ?rv ?n) ?o = Raises ?e |- library_raised_within _ _ _ =>
      exists e, (answered d rv n), o;
      split; [reflexivity | split; [reflexivity | split; [exact Hraise | vm_compute; lia]]]
  end.

(** A complete run, operation by operation. *)
Example obliging_run :
  fst (run_worker obliging "/tmp" uuid0 []) = Ok tt /\
  map op_name (performed (snd (run_worker obliging "/tmp" uuid0 []))) =
    [ "create_example"; "network"; "build_graphs"; "network"; "graphs"; "c";
      "set_graph"; "set_blocked_centroid_flows"; "matrices"; "list";
      "get_matrix"; "computational_view"; "TrafficClass"; "TrafficAssignment";
      "add_class"; "set_vdf"; "set_vdf_parameters"; "set_capacity_field";
      "set_time_field"; "set_algorithm"; "max_iter"; "rgap_target"; "execute";
      "skim_congested"; "car"; "names"; "save_skims"; "close" ] /\
  stdout (snd (run_worker obliging "/tmp" uuid0 [])) =
    [ VObj 25; VStr "Worker done" ].
Proof. vm_compute. repeat split; reflexivity. Qed.

(** A run cut short: the lookup of graph "c" raises. *)
Example missing_graph_run :
  run_worker (raising_at 5 key_error) "/tmp" uuid0 [] =
  (Err key_error,
   mkWorld
     [ (Call "create_example"
          [VPath ["/tmp"; "aequilibrae"; "12345678123446788234567812345678"];
           VStr "sioux_falls"] [], Returns (VObj 0));
       (GetAttr (VObj 0) "network", Returns (VObj 1));
       (Method (VObj 1) "build_graphs" [] [], Returns (VObj 2));
       (GetAttr (VObj 0) "network", Returns (VObj 3));
       (GetAttr (VObj 3) "graphs", Returns (VObj 4));
       (GetItem (VObj 4) (VStr "c"), Raises key_error) ]
     []).
Proof. vm_compute. reflexivity. Qed.

(** ** Configuration before execution *)

(** C2, as stated, fails on a run that the library cuts short: when
    [create_example] raises, the worker stops there and no configuration
    call occurs at all. *)
Lemma configuration_absent_when_creation_fails :
  let ops := performed (snd (run_worker (raising_at 0 disk_full) "/tmp" uuid0 [])) in
  ~ Forall (fun c => occurrences c ops = 1) configuration_calls.
Proof.
  intros ops H. inversion H as [|c l H1 _]. clear H. subst ops.
  revert H1. vm_compute. discriminate.
Qed.

(** C2 (amended): in every execution of the worker each configuration call
    (set_vdf, set_vdf_parameters, set_capacity_field, set_time_field,
    set_algorithm, the assignment of max_iter and of rgap_target) occurs at
    most once and never after execute(); whenever execute() is invoked each
    of them has occurred exactly once before it; and execute() is invoked
    exactly once unless the library raised in one of the 22 operations
    before it. *)
Theorem configuration_once_before_execute (lib : library) tempdir uuid out :
  let rw := run_worker lib tempdir uuid out in
  let ops := performed (snd rw) in
  Forall (fun c =>
            occurrences c ops <= 1 /\
            occurrences c (after is_execute ops) = 0 /\
            (existsb is_execute ops = true ->
             occurrences c (before is_execute ops) = 1))
         configuration_calls /\
  (library_raised_within lib 22 rw \/ occurrences is_execute ops = 1).
Proof.
  unfold configuration_calls.
  worker_runs lib tempdir uuid out rv n e Hn.
  - split; [repeat constructor; vm_compute; try lia; reflexivity
           | right; reflexivity].
  - each_abort n ltac:(split;
      [ repeat constructor; vm_compute; try lia; try reflexivity; discriminate
      | first [ right; reflexivity | left; raised_here ] ]).
Qed.

(** ** Saving the skims and closing the project *)

Ltac in_at k := apply (nth_error_In _ k); vm_compute; reflexivity.

(** C3: on every successful run of the worker there is exactly one
    save_skims call; it names the file "base_year_assignment_skims", asks
    for the OMX format and for which_ones="final" (so never for blended
    skims); it is made on the assignment object that was executed before,
    and it returned. *)
Theorem skims_saved_final_omx (lib : library) tempdir uuid out :
  fst (run_worker lib tempdir uuid out) = Ok tt ->
  exists assig v,
    filter (is_method "save_skims")
      (performed (snd (run_worker lib tempdir uuid out)))
      = [save_skims_call assig] /\
    In (save_skims_call assig, Returns v)
      (calls (snd (run_worker lib tempdir uuid out))) /\
    In (Method assig "execute" [] [])
      (before (is_method "save_skims")
         (performed (snd (run_worker lib tempdir uuid out)))).
Proof.
  worker_runs lib tempdir uuid out rv n e Hn; cbn [fst snd]; intros Hok;
    [| discriminate Hok].
  exists (rv 13), (rv 26).
  split; [vm_compute; reflexivity | split; [in_at 26 | in_at 22]].
Qed.

Lemma skims_saved_final_omx_witness :
  fst (run_worker obliging "/tmp" uuid0 []) = Ok tt /\
  exists assig v,
    filter (is_method "save_skims")
      (performed (snd (run_worker obliging "/tmp" uuid0 [])))
      = [save_skims_call assig] /\
    In (save_skims_call assig, Returns v)
      (calls (snd (run_worker obliging "/tmp" uuid0 []))) /\
    In (Method assig "execute" [] [])
      (before (is_method "save_skims")
         (performed (snd (run_worker obliging "/tmp" uuid0 [])))).
Proof.
  split; [vm_compute; reflexivity|].
  apply (skims_saved_final_omx obliging "/tmp" uuid0 []).
  vm_compute. reflexivity.
Defined.

(** C4: on every successful run of the worker, close() is invoked exactly
    once, on the project that create_example returned; execute() and
    save_skims have both been invoked (once each) before it, and it is the
    last operation on the library. *)
Theorem project_closed_once_at_end (lib : library) tempdir uuid out :
  fst (run_worker lib tempdir uuid out) = Ok tt ->
  exists project,
    hd_error (calls (snd (run_worker lib tempdir uuid out)))
      = Some (Call "create_example"
                [VPath (fldr tempdir uuid); VStr "sioux_falls"] [],
              Returns project) /\
    filter (is_method "close") (performed (snd (run_worker lib tempdir uuid out)))
      = [Method project "close" [] []] /\
    occurrences is_execute
      (before (is_method "close")
         (performed (snd (run_worker lib tempdir uuid out)))) = 1 /\
    occurrences (is_method "save_skims")
      (before (is_method "close")
         (performed (snd (run_worker lib tempdir uuid out)))) = 1 /\
    after (is_method "close")
      (performed (snd (run_worker lib tempdir uuid out))) = [].
Proof.
  worker_runs lib tempdir uuid out rv n e Hn; cbn [fst snd]; intros Hok;
    [| discriminate Hok].
  exists (rv 0).
  repeat split; vm_compute; reflexivity.
Qed.

Lemma project_closed_once_at_end_witness :
  fst (run_worker obliging "/tmp" uuid0 []) = Ok tt /\
  exists project,
    hd_error (calls (snd (run_worker obliging "/tmp" uuid0 [])))
      = Some (Call "create_example"
                [VPath (fldr "/tmp" uuid0); VStr "sioux_falls"] [],
              Returns project) /\
    filter (is_method "close") (performed (snd (run_worker obliging "/tmp" uuid0 [])))
      = [Method project "close" [] []] /\
    occurrences is_execute
      (before (is_method "close")
         (performed (snd (run_worker obliging "/tmp" uuid0 [])))) = 1 /\
    occurrences (is_method "save_skims")
      (before (is_method "close")
         (performed (snd (run_worker obliging "/tmp" uuid0 [])))) = 1 /\
    after (is_method "close")
      (performed (snd (run_worker obliging "/tmp" uuid0 []))) = [].
Proof.
  split; [vm_compute; reflexivity|].
  apply (project_closed_once_at_end obliging "/tmp" uuid0 []).
  vm_compute. reflexivity.
Defined.

(** ** The settings of the example scenario *)

Lemma once_unless_raised_only lib rw k sel o o' :
  once_unless_raised lib rw k sel o ->
  In o' (performed (snd rw)) -> sel o' = true -> o' = o.
Proof.
  intros H Hin Hsel.
  assert (Hf : In o' (filter sel (performed (snd rw))))
    by (apply filter_In; split; assumption).
  destruct H as [[_ H]|H]; rewrite H in Hf; cbn in Hf.
  - contradiction.
  - destruct Hf as [Hf|[]]. symmetry. exact Hf.
Qed.

Ltac absent H :=
  revert H; vm_compute; intros H;
  repeat (destruct H as [H|H]; [discriminate H|]); exact H.

Ltac settle_once :=
  unfold once_unless_raised;
  first [ right; vm_compute; reflexivity
        | left; split; [raised_here | vm_compute; reflexivity] ].

Ltac settle k :=
  lazymatch goal with
  | |- once_unless_raised _ _ _ _ _ => settle_once
  | |- _ = _ => vm_compute; reflexivity
  | |- _ \/ _ => first [ left; vm_compute; reflexivity | right; in_at k ]
  end.

Ltac split_and :=
  lazymatch goal with
  | |- once_unless_raised _ _ _ _ _ => fail
  | |- _ /\ _ => split
  end.

Ltac in_some :=
  first [ in_at 0 | in_at 5 | in_at 8 | in_at 10 | in_at 12 | in_at 13 | in_at 14 ].

Ltac settle_tied :=
  lazymatch goal with
  | |- once_unless_raised _ _ _ _ _ => settle_once
  | |- _ \/ _ =>
      first [ left; vm_compute; reflexivity
            | right; unfold assignment_of_class; repeat split; in_some ]
  end.

(** C9, as stated, fails on a run that the library cuts short: when the
    lookup of graph "c" raises, the worker stops before it configures the
    graph. *)
Lemma centroid_flows_unset_when_graph_missing :
  ~ exists graph,
      In (Method graph "set_blocked_centroid_flows" [VBool false] [])
         (performed (snd (run_worker (raising_at 5 key_error) "/tmp" uuid0 []))).
Proof. intros [graph H]. absent H. Qed.

(** C9 (amended): in every run the worker calls set_blocked_centroid_flows
    exactly once, with the single argument False, on the graph it obtained
    as graphs["c"] -- unless the library raised in one of the seven
    operations before that call, in which case the call is not made; no run
    makes the call with another value. *)
Theorem blocked_centroid_flows_disabled (lib : library) tempdir uuid out :
  exists graphs graph,
    once_unless_raised lib (run_worker lib tempdir uuid out) 7
      (is_method "set_blocked_centroid_flows")
      (Method graph "set_blocked_centroid_flows" [VBool false] []) /\
    (filter (is_method "set_blocked_centroid_flows")
       (performed (snd (run_worker lib tempdir uuid out))) = [] \/
     returned_by (calls (snd (run_worker lib tempdir uuid out)))
       (GetItem graphs (VStr "c")) graph).
Proof.
  worker_runs lib tempdir uuid out rv n e Hn.
  - exists (rv 4), (rv 5). split; settle 5.
  - each_abort n ltac:(exists (rv 4), (rv 5); split; settle 5).
Qed.

(** C10, as stated, fails on a run that the library cuts short: when
    build_graphs raises, no matrix is selected and no field is set. *)
Lemma fields_unset_when_build_fails :
  ~ exists assig,
      In (Method assig "set_capacity_field" [VStr "capacity"] [])
         (performed (snd (run_worker (raising_at 2 build_failure) "/tmp" uuid0 []))).
Proof. intros [assig H]. absent H. Qed.

(** C10 (amended): in every run, each of the following is performed exactly
    once unless the library raised in an operation before it (and then not
    at all), and never with other arguments: set_graph("free_flow_time") on
    the car graph (the object obtained as graphs["c"]),
    get_matrix("demand_omx") on the project's matrices,
    computational_view(["matrix"]) on the matrix that get_matrix returned,
    set_capacity_field("capacity") and set_time_field("free_flow_time") on
    the assignment that TrafficAssignment() returned and to which the
    traffic class built on that very graph and matrix was added.  Hence
    whenever both the cost field of the graph and the time field of the
    assignment are set, they are the same field, of the graph that is
    assigned and of the assignment that holds it. *)
Theorem demand_and_fields (lib : library) tempdir uuid out :
  exists project graphs graph matrices demand class assig,
    once_unless_raised lib (run_worker lib tempdir uuid out) 6
      (is_method "set_graph")
      (Method graph "set_graph" [VStr "free_flow_time"] []) /\
    (filter (is_method "set_graph")
       (performed (snd (run_worker lib tempdir uuid out))) = [] \/
     returned_by (calls (snd (run_worker lib tempdir uuid out)))
       (GetItem graphs (VStr "c")) graph) /\
    once_unless_raised lib (run_worker lib tempdir uuid out) 10
      (is_method "get_matrix")
      (Method matrices "get_matrix" [VStr "demand_omx"] []) /\
    (filter (is_method "get_matrix")
       (performed (snd (run_worker lib tempdir uuid out))) = [] \/
     returned_by (calls (snd (run_worker lib tempdir uuid out)))
       (GetAttr project "matrices") matrices /\
     returned_by (calls (snd (run_worker lib tempdir uuid out)))
       (Call "create_example"
          [VPath (fldr tempdir uuid); VStr "sioux_falls"] []) project) /\
    once_unless_raised lib (run_worker lib tempdir uuid out) 11
      (is_method "computational_view")
      (Method demand "computational_view" [VList [VStr "matrix"]] []) /\
    (filter (is_method "computational_view")
       (performed (snd (run_worker lib tempdir uuid out))) = [] \/
     returned_by (calls (snd (run_worker lib tempdir uuid out)))
       (Method matrices "get_matrix" [VStr "demand_omx"] []) demand) /\
    once_unless_raised lib (run_worker lib tempdir uuid out) 17
      (is_method "set_capacity_field")
      (Method assig "set_capacity_field" [VStr "capacity"] []) /\
    (filter (is_method "set_capacity_field")
       (performed (snd (run_worker lib tempdir uuid out))) = [] \/
     assignment_of_class (run_worker lib tempdir uuid out)
       graph demand class assig) /\
    once_unless_raised lib (run_worker lib tempdir uuid out) 18
      (is_method "set_time_field")
      (Method assig "set_time_field" [VStr "free_flow_time"] []) /\
    (filter (is_method "set_time_field")
       (performed (snd (run_worker lib tempdir uuid out))) = [] \/
     assignment_of_class (run_worker lib tempdir uuid out)
       graph demand class assig) /\
    (forall g cost a time,
       In (Method g "set_graph" [cost] [])
          (performed (snd (run_worker lib tempdir uuid out))) ->
       In (Method a "set_time_field" [time] [])
          (performed (snd (run_worker lib tempdir uuid out))) ->
       time = cost /\ g = graph /\ a = assig).
Proof.
  assert (Hmain : exists project graphs graph matrices demand class assig,
    once_unless_raised lib (run_worker lib tempdir uuid out) 6
      (is_method "set_graph")
      (Method graph "set_graph" [VStr "free_flow_time"] []) /\
    (filter (is_method "set_graph")
       (performed (snd (run_worker lib tempdir uuid out))) = [] \/
     returned_by (calls (snd (run_worker lib tempdir uuid out)))
       (GetItem graphs (VStr "c")) graph) /\
    once_unless_raised lib (run_worker lib tempdir uuid out) 10
      (is_method "get_matrix")
      (Method matrices "get_matrix" [VStr "demand_omx"] []) /\
    (filter (is_method "get_matrix")
       (performed (snd (run_worker lib tempdir uuid out))) = [] \/
     returned_by (calls (snd (run_worker lib tempdir uuid out)))
       (GetAttr project "matrices") matrices /\
     returned_by (calls (snd (run_worker lib tempdir uuid out)))
       (Call "create_example"
          [VPath (fldr tempdir uuid); VStr "sioux_falls"] []) project) /\
    once_unless_raised lib (run_worker lib tempdir uuid out) 11
      (is_method "computational_view")
      (Method demand "computational_view" [VList [VStr "matrix"]] []) /\
    (filter (is_method "computational_view")
       (performed (snd (run_worker lib tempdir uuid out))) = [] \/
     returned_by (calls (snd (run_worker lib tempdir uuid out)))
       (Method matrices "get_matrix" [VStr "demand_omx"] []) demand) /\
    once_unless_raised lib (run_worker lib tempdir uuid out) 17
      (is_method "set_capacity_field")
      (Method assig "set_capacity_field" [VStr "capacity"] []) /\
    (filter (is_method "set_capacity_field")
       (performed (snd (run_worker lib tempdir uuid out))) = [] \/
     assignment_of_class (run_worker lib tempdir uuid out)
       graph demand class assig) /\
    once_unless_raised lib (run_worker lib tempdir uuid out) 18
      (is_method "set_time_field")
      (Method assig "set_time_field" [VStr "free_flow_time"] []) /\
    (filter (is_method "set_time_field")
       (performed (snd (run_worker lib tempdir uuid out))) = [] \/
     assignment_of_class (run_worker lib tempdir uuid out)
       graph demand class assig)).
  { worker_runs lib tempdir uuid out rv n e Hn.
    - exists (rv 0), (rv 4), (rv 5), (rv 8), (rv 10), (rv 12), (rv 13).
      repeat split_and; settle_tied.
    - each_abort n ltac:(
        exists (rv 0), (rv 4), (rv 5), (rv 8), (rv 10), (rv 12), (rv 13);
        repeat split_and; settle_tied). }
  destruct Hmain as (project & graphs & graph & matrices & demand & class & assig
                     & Hg & Hgc & Hm & Hmp & Hv & Hd & Hc & Hca & Ht & Hta).
  exists project, graphs, graph, matrices, demand, class, assig.
  repeat (split; [assumption|]).
  intros g cost a time Hin1 Hin2.
  apply (once_unless_raised_only _ _ _ _ _ _ Hg) in Hin1; [|reflexivity].
  apply (once_unless_raised_only _ _ _ _ _ _ Ht) in Hin2; [|reflexivity].
  inversion Hin1; inversion Hin2; subst. auto.
Qed.

(** C7, as stated, fails on a run that the library cuts short: when
    execute() raises, the worker stops there and never requests the
    "distance" skim. *)
Lemma no_skim_request_when_execute_fails :
  ~ exists assig kw,
      In (Method assig "skim_congested" [VList [VStr "distance"]] kw)
         (performed (snd (run_worker (raising_at 22 assignment_failure)
                            "/tmp" uuid0 []))).
Proof. intros (assig & kw & H). absent H. Qed.

(** C7 (amended): every run of the worker asks create_example for the
    bundled "sioux_falls" project, exactly once; and each further setting of
    the example scenario is made exactly once unless the library raised in
    an operation before it (and then not at all), and never with other
    values: the traffic class named "car" on the graph obtained as
    graphs["c"], set_vdf("BPR"), set_vdf_parameters with alpha mapped from
    "b" and beta from "power", set_algorithm("bfw"), max_iter = 10,
    rgap_target = 0.01, and the skim request for "distance". *)
Theorem example_scenario (lib : library) tempdir uuid out :
  exists graphs graph demand assig,
    filter (is_call "create_example")
      (performed (snd (run_worker lib tempdir uuid out)))
      = [Call "create_example" [VPath (fldr tempdir uuid); VStr "sioux_falls"] []] /\
    once_unless_raised lib (run_worker lib tempdir uuid out) 12
      (is_call "TrafficClass")
      (Call "TrafficClass" []
         [("name", VStr "car"); ("graph", graph); ("matrix", demand)]) /\
    (filter (is_call "TrafficClass")
       (performed (snd (run_worker lib tempdir uuid out))) = [] \/
     returned_by (calls (snd (run_worker lib tempdir uuid out)))
       (GetItem graphs (VStr "c")) graph) /\
    once_unless_raised lib (run_worker lib tempdir uuid out) 15
      (is_method "set_vdf")
      (Method assig "set_vdf" [VStr "BPR"] []) /\
    once_unless_raised lib (run_worker lib tempdir uuid out) 16
      (is_method "set_vdf_parameters")
      (Method assig "set_vdf_parameters"
         [VDict [("alpha", VStr "b"); ("beta", VStr "power")]] []) /\
    once_unless_raised lib (run_worker lib tempdir uuid out) 19
      (is_method "set_algorithm")
      (Method assig "set_algorithm" [VStr "bfw"] []) /\
    once_unless_raised lib (run_worker lib tempdir uuid out) 20
      (is_setattr "max_iter")
      (SetAttr assig "max_iter" (VInt 10)) /\
    once_unless_raised lib (run_worker lib tempdir uuid out) 21
      (is_setattr "rgap_target")
      (SetAttr assig "rgap_target" (VFloat (1 # 100)%Q)) /\
    once_unless_raised lib (run_worker lib tempdir uuid out) 23
      (is_method "skim_congested")
      (Method assig "skim_congested" [VList [VStr "distance"]]
         [("return_matrices", VBool true)]).
Proof.
  worker_runs lib tempdir uuid out rv n e Hn.
  - exists (rv 4), (rv 5), (rv 10), (rv 13). repeat split; settle 5.
  - each_abort n ltac:(exists (rv 4), (rv 5), (rv 10), (rv 13);
                       repeat split; settle 5).
Qed.

(** ** Failure of the library *)

Lemma answered_returns dir rv n x :
  In x (answered dir rv n) -> exists v, snd x = Returns v.
Proof.
  destruct x as [o r]. unfold answered. intros H.
  apply in_combine_r in H. apply in_map_iff in H.
  destruct H as (i & H & _). exists (rv i). symmetry. exact H.
Qed.

(** A log whose entries all returned, followed by one entry, has a raise
    only in that last entry. *)
Lemma raise_is_last (l : log) (a : op * outcome) :
  (forall x, In x l -> exists v, snd x = Returns v) ->
  forall pre o e post,
    l ++ [a] = pre ++ (o, Raises e) :: post ->
    pre = l /\ a = (o, Raises e) /\ post = [].
Proof.
  induction l as [|x l IH]; intros Hl pre o e post H.
  - destruct pre as [|y pre]; cbn in H.
    + inversion H. auto.
    + inversion H as [[H1 H2]]. destruct pre; discriminate H2.
  - destruct pre as [|y pre]; cbn in H.
    + inversion H as [[H1 H2]]. subst x.
      destruct (Hl (o, Raises e) (or_introl eq_refl)) as [v Hv]. discriminate Hv.
    + inversion H as [[H1 H2]]. subst y.
      destruct (IH (fun z Hz => Hl z (or_intror Hz)) pre o e post H2)
        as (-> & -> & ->).
      auto.
Qed.

(** C8: the worker handles no error.  Whenever the library raises in some
    operation of a run, the worker's result is that very exception, the
    raising operation is the last thing the worker did (so nothing is
    cleaned up: no close() is called on the failure path and nothing is
    removed), and when the failure comes after the project was created the
    project directory is still on disk. *)
Theorem failure_propagates_without_cleanup (lib : library) tempdir uuid out
  pre o e post :
  calls (snd (run_worker lib tempdir uuid out)) = pre ++ (o, Raises e) :: post ->
  fst (run_worker lib tempdir uuid out) = Err e /\
  lib pre o = Raises e /\
  post = [] /\
  occurrences (is_method "close") (map fst pre) = 0 /\
  (pre <> [] ->
   In (fldr tempdir uuid) (on_disk (calls (snd (run_worker lib tempdir uuid out))))).
Proof.
  worker_runs lib tempdir uuid out rv n e' Hn; cbn [fst snd calls]; intros H.
  - exfalso.
    assert (Hin : In (o, Raises e) (answered dir rv 28))
      by (rewrite H; apply in_elt).
    apply answered_returns in Hin. destruct Hin as [v Hv]. discriminate Hv.
  - apply raise_is_last in H; [|apply answered_returns].
    destruct H as (-> & Ha & ->). inversion Ha; subst.
    split; [reflexivity|]. split; [exact Hraise|]. split; [reflexivity|].
    clear Hraise.
    each_abort n ltac:(split;
      [ vm_compute; reflexivity
      | first [ intros Hne; exfalso; apply Hne; reflexivity
              | intros _; vm_compute; left; reflexivity ] ]).
Qed.

Lemma failure_propagates_without_cleanup_witness :
  let rw := run_worker (raising_at 22 assignment_failure) "/tmp" uuid0 [] in
  fst rw = Err assignment_failure /\
  In (fldr "/tmp" uuid0) (on_disk (calls (snd rw))).
Proof.
  intros rw.
  assert (H : calls (snd rw) =
              removelast (calls (snd rw)) ++
              (Method (VObj 13) "execute" [] [], Raises assignment_failure) :: [])
    by (vm_compute; reflexivity).
  destruct (failure_propagates_without_cleanup _ _ _ _ _ _ _ _ H)
    as (H1 & _ & _ & _ & H5).
  split; [exact H1|]. apply H5. vm_compute. discriminate.
Defined.

(** ** The project directory *)

Lemma worker_first_operation (lib : library) tempdir uuid out :
  hd_error (performed (snd (run_worker lib tempdir uuid out)))
    = Some (Call "create_example"
              [VPath (fldr tempdir uuid); VStr "sioux_falls"] []).
Proof.
  worker_runs lib tempdir uuid out rv n e Hn.
  - reflexivity.
  - each_abort n ltac:(reflexivity).
Qed.

Lemma fldr_parts tempdir uuid :
  fldr tempdir uuid = [tempdir; "aequilibrae"; hex uuid].
Proof. reflexivity. Qed.

(** C6: every invocation of the worker builds the path
    <tempdir>/aequilibrae/<hex of its UUID> and hands it to create_example
    as the project directory (its first operation, made in every run); two
    invocations whose UUIDs differ use different project directories,
    whatever their temporary directories are. *)
Theorem project_directories_distinct (lib1 lib2 : library)
  (tempdir1 tempdir2 : string) (uuid1 uuid2 : UUID) (out1 out2 : list pyval) :
  int uuid1 <> int uuid2 ->
  hd_error (performed (snd (run_worker lib1 tempdir1 uuid1 out1)))
    = Some (Call "create_example"
              [VPath [tempdir1; "aequilibrae"; hex uuid1]; VStr "sioux_falls"] []) /\
  hd_error (performed (snd (run_worker lib2 tempdir2 uuid2 out2)))
    = Some (Call "create_example"
              [VPath [tempdir2; "aequilibrae"; hex uuid2]; VStr "sioux_falls"] []) /\
  hex uuid1 <> hex uuid2 /\
  [tempdir1; "aequilibrae"; hex uuid1] <> [tempdir2; "aequilibrae"; hex uuid2].
Proof.
  intros Hne.
  rewrite <- !fldr_parts.
  split; [apply worker_first_operation|].
  split; [apply worker_first_operation|].
  assert (Hhex : hex uuid1 <> hex uuid2)
    by (intros H; apply Hne, hex_injective, H).
  split; [exact Hhex|].
  rewrite !fldr_parts. intros H. apply Hhex. congruence.
Qed.

Lemma project_directories_distinct_witness :
  int uuid0 <> int uuid1 /\
  [ "/tmp"; "aequilibrae"; hex uuid0 ] <> [ "/tmp"; "aequilibrae"; hex uuid1 ].
Proof.
  assert (Hne : int uuid0 <> int uuid1) by (cbn; discriminate).
  split; [exact Hne|].
  apply (project_directories_distinct obliging obliging "/tmp" "/tmp"
           uuid0 uuid1 [] [] Hne).
Defined.

Example hex_uuid0 : hex uuid0 = "12345678123446788234567812345678".
Proof. vm_compute. reflexivity. Qed.

(** ** The launcher's runs *)

Lemma main_run (plat : platform) environ (lib : library) tempdir uuid :
  main plat environ lib tempdir uuid fresh_host =
  match get_context plat (or_none (environ start_method_variable)) with
  | Ok ctx =>
      let child :=
        run_worker lib tempdir uuid [notice plat (environ start_method_variable)] in
      (Ok tt,
       mkHost (stdout (snd child) ++ [VStr "All done!"])
              [mkProcess ctx (worker lib tempdir uuid) (Some child) true])
  | Err e =>
      (Err e, mkHost [notice plat (environ start_method_variable)] [])
  end.
Proof.
  unfold main, bind, lift, hprint, new_process, start, join, notice,
    start_method_variable, run_worker.
  cbn [console processes fresh_host app length nth_error].
  destruct (get_context plat (or_none (environ "MULTIPROCESSING_START_METHOD")))
    as [ctx|e]; [|reflexivity].
  cbn [nth_error target].
  destruct (worker lib tempdir uuid _) as [rc wc].
  reflexivity.
Qed.

(** The worker only appends to the standard output. *)
Lemma worker_stdout_extends (lib : library) tempdir uuid out :
  exists tail, stdout (snd (run_worker lib tempdir uuid out)) = out ++ tail.
Proof.
  worker_runs lib tempdir uuid out rv n e Hn; cbn [snd stdout].
  - exists [rv 25; VStr "Worker done"]. now rewrite <- app_assoc.
  - match goal with
    | |- context [if ?c then _ else _] => destruct c
    end; [exists [rv 25] | exists []]; now rewrite ?app_nil_r.
Qed.

Lemma main_first_line (plat : platform) environ (lib : library) tempdir uuid :
  hd_error (console (snd (main plat environ lib tempdir uuid fresh_host)))
    = Some (notice plat (environ start_method_variable)).
Proof.
  rewrite main_run.
  destruct (get_context _ _) as [ctx|e]; [|reflexivity].
  cbn [snd console].
  destruct (worker_stdout_extends lib tempdir uuid
              [notice plat (environ start_method_variable)]) as [tail ->].
  reflexivity.
Qed.

(** C1, as stated, fails for a value that names no start method of the
    platform: the launcher prints the value and then get_context raises, so
    no process context is created with it. *)
Lemma no_context_for_unknown_method :
  ~ map pcontext
      (processes (snd (main macos (environ_with (Some "bogus")) obliging
                         "/tmp" uuid0 fresh_host)))
    = [Context "bogus"].
Proof. vm_compute. discriminate. Qed.

Example main_unknown_method :
  main macos (environ_with (Some "bogus")) obliging "/tmp" uuid0 fresh_host
  = (Err (Exn "ValueError" "cannot find context for 'bogus'"),
     mkHost [VStr "Using start method bogus"] []).
Proof. vm_compute. reflexivity. Qed.

(** C1 (amended): for every value of MULTIPROCESSING_START_METHOD.  If it is
    unset or empty, the launcher prints the platform default marked
    "(default)" and creates the process with the context of the default
    method.  Otherwise it prints exactly the supplied value; if the platform
    offers a start method of that name the process is created with the
    context of that method, and if not, get_context raises ValueError and
    no process is created. *)
Theorem start_method_resolution (plat : platform) environ (lib : library)
  tempdir uuid :
  let v := environ start_method_variable in
  let run := main plat environ lib tempdir uuid fresh_host in
  (v = None \/ v = Some "" ->
   hd_error (console (snd run))
     = Some (VStr ("Using start method " ++ default_method plat ++ " (default)")) /\
   map pcontext (processes (snd run)) = [Context (default_method plat)]) /\
  (forall s, v = Some s -> s <> "" ->
   hd_error (console (snd run)) = Some (VStr ("Using start method " ++ s)) /\
   (In s (concrete_contexts plat) ->
    map pcontext (processes (snd run)) = [Context s]) /\
   (~ In s (concrete_contexts plat) ->
    fst run = Err (Exn "ValueError" ("cannot find context for '" ++ s ++ "'")) /\
    processes (snd run) = [])).
Proof.
  intros v run. subst run.
  split.
  - intros Hv. rewrite main_first_line. rewrite main_run. fold v.
    assert (Hn : or_none v = None) by (destruct Hv as [-> | ->]; reflexivity).
    unfold notice. fold v. rewrite Hn. cbn. split; reflexivity.
  - intros s Hv Hs. rewrite main_first_line. rewrite main_run. fold v.
    assert (Hn : or_none v = Some s).
    { rewrite Hv. unfold or_none, truthy.
      destruct (String.eqb_spec s ""); [contradiction | reflexivity]. }
    assert (Hstr : forall d, or_str (Some s) d = s).
    { intros d. unfold or_str, truthy.
      destruct (String.eqb_spec s ""); [contradiction | reflexivity]. }
    unfold notice. fold v. rewrite Hn, Hstr.
    split; [reflexivity|].
    unfold get_context.
    destruct (existsb (String.eqb s) (concrete_contexts plat)) eqn:Hex.
    + split; [intros _; reflexivity|].
      intros Hnot. exfalso. apply Hnot.
      apply existsb_exists in Hex. destruct Hex as (x & Hx & Heq).
      apply String.eqb_eq in Heq. subst x. exact Hx.
    + split; [|intros _; split; reflexivity].
      intros Hin. exfalso.
      assert (Ht : existsb (String.eqb s) (concrete_contexts plat) = true).
      { apply existsb_exists. exists s. split; [exact Hin|apply String.eqb_refl]. }
      congruence.
Qed.

Example main_default_run :
  console (snd (main macos (environ_with None) obliging "/tmp" uuid0 fresh_host))
  = [ VStr "Using start method spawn (default)"; VObj 25;
      VStr "Worker done"; VStr "All done!" ].
Proof. vm_compute. reflexivity. Qed.

Example main_failing_worker :
  let run := main macos (environ_with (Some "fork"))
               (raising_at 22 assignment_failure) "/tmp" uuid0 fresh_host in
  fst run = Ok tt /\
  console (snd run) = [VStr "Using start method fork"; VStr "All done!"] /\
  map joined (processes (snd run)) = [true].
Proof. vm_compute. repeat split; reflexivity. Qed.

(** C5: once the worker process exists (get_context returned a context),
    then for every outcome of the worker -- whatever the library does in the
    child, normal exit or unhandled exception -- the launcher returns
    normally, "All done!" is the last line on the console and directly
    follows the child's output, and exactly one process was created,
    started once (its child ran the worker once) and joined; the launcher
    never reads how the child ended, so its own result and its own lines do
    not depend on it. *)
Theorem parent_only_joins (plat : platform) environ (lib : library)
  tempdir uuid ctx :
  get_context plat (or_none (environ start_method_variable)) = Ok ctx ->
  fst (main plat environ lib tempdir uuid fresh_host) = Ok tt /\
  console (snd (main plat environ lib tempdir uuid fresh_host))
    = stdout (snd (run_worker lib tempdir uuid
                     [notice plat (environ start_method_variable)]))
      ++ [VStr "All done!"] /\
  processes (snd (main plat environ lib tempdir uuid fresh_host))
    = [ mkProcess ctx (worker lib tempdir uuid)
          (Some (run_worker lib tempdir uuid
                   [notice plat (environ start_method_variable)]))
          true ].
Proof.
  intros Hctx. rewrite main_run, Hctx. cbn [fst snd console processes].
  repeat split.
Qed.

Lemma parent_only_joins_witness :
  get_context macos (or_none (environ_with (Some "fork") start_method_variable))
    = Ok (Context "fork") /\
  fst (main macos (environ_with (Some "fork"))
         (raising_at 22 assignment_failure) "/tmp" uuid0 fresh_host) = Ok tt.
Proof.
  assert (H : get_context macos
                (or_none (environ_with (Some "fork") start_method_variable))
              = Ok (Context "fork")) by (vm_compute; reflexivity).
  split; [exact H|].
  apply (parent_only_joins macos (environ_with (Some "fork"))
           (raising_at 22 assignment_failure) "/tmp" uuid0 (Context "fork") H).
Defined.

(** * Further properties of the worker and of the launcher *)

Lemma every_Forall {A} (P : A -> Prop) (l : list A) : every P l -> Forall P l.
Proof.
  induction l as [|x l IH]; cbn; [constructor|].
  intros [Hx Hl]. constructor; auto.
Qed.

(** X2: what the worker prints.  A run that returns normally adds exactly
    two lines to the standard output: the value it read as
    skims["car"].names -- the "names" attribute of the item "car" of what
    skim_congested returned -- and then "Worker done".  A run that ends with
    an exception adds nothing, or only those names (when the failure came
    after they were printed); it never adds a second line. *)
Theorem worker_output (lib : library) tempdir uuid out :
  match fst (run_worker lib tempdir uuid out) with
  | Ok _ =>
      exists assig skims car names,
        printed_names (run_worker lib tempdir uuid out) assig skims car names /\
        stdout (snd (run_worker lib tempdir uuid out))
          = out ++ [names; VStr "Worker done"]
  | Err _ =>
      stdout (snd (run_worker lib tempdir uuid out)) = out \/
      exists assig skims car names,
        printed_names (run_worker lib tempdir uuid out) assig skims car names /\
        stdout (snd (run_worker lib tempdir uuid out)) = out ++ [names]
  end.
Proof.
  worker_runs lib tempdir uuid out rv n e Hn; cbn [fst snd calls stdout].
  - exists (rv 13), (rv 23), (rv 24), (rv 25).
    split; [repeat split; [in_at 23 | in_at 24 | in_at 25]
           | now rewrite <- app_assoc].
  - clear Hraise.
    each_abort n ltac:(first
      [ left; reflexivity
      | right; exists (rv 13), (rv 23), (rv 24), (rv 25);
        split; [repeat split; [in_at 23 | in_at 24 | in_at 25] | reflexivity] ]).
Qed.

(** X3: the operations of every run are an initial segment of the 28
    operations of the source, in source order: none is skipped, repeated or
    reordered; the segment is never empty, and it is the whole sequence when
    the worker returns normally. *)
Theorem operations_in_source_order (lib : library) tempdir uuid out :
  exists n,
    1 <= n <= 28 /\
    map op_name (performed (snd (run_worker lib tempdir uuid out)))
      = firstn n operation_names /\
    match fst (run_worker lib tempdir uuid out) with
    | Ok _ => n = 28
    | Err _ => True
    end.
Proof.
  worker_runs lib tempdir uuid out rv n e Hn; cbn [fst snd].
  - exists 28. split; [lia|]. split; [vm_compute; reflexivity | reflexivity].
  - clear Hraise. exists (S n).
    each_abort n ltac:(split; [lia | split; [vm_compute; reflexivity | exact I]]).
Qed.

(** X4: the objects are wired as the source names them.  In every run there
    is one project, one matrix store, one graph, one demand matrix, one
    traffic class and one assignment such that every operation that returns
    one of them returns that object, and every operation that works on one
    of them works on that object: the graph given to TrafficClass is the one
    obtained as graphs["c"] and configured by set_graph and
    set_blocked_centroid_flows, the matrix given to it is the one that
    get_matrix returned and computational_view prepared, add_class receives
    the class that TrafficClass returned, every assignment call goes to the
    object that TrafficAssignment() returned, and close() goes to the
    project that create_example returned. *)
Theorem objects_wired (lib : library) tempdir uuid out :
  exists obj : objects,
    Forall (produces obj) (calls (snd (run_worker lib tempdir uuid out))) /\
    Forall (uses obj) (performed (snd (run_worker lib tempdir uuid out))).
Proof.
  worker_runs lib tempdir uuid out rv n e Hn; cbn [fst snd].
  - exists (mkObjects (rv 0) (rv 8) (rv 5) (rv 10) (rv 12) (rv 13)).
    split; apply every_Forall; vm_compute; repeat split.
  - clear Hraise.
    each_abort n ltac:(
      exists (mkObjects (rv 0) (rv 8) (rv 5) (rv 10) (rv 12) (rv 13));
      split; apply every_Forall; vm_compute; repeat split).
Qed.

(** ** The launcher *)

Lemma or_none_nonempty (s : string) : s <> "" -> or_none (Some s) = Some s.
Proof.
  intros Hs. unfold or_none, truthy.
  destruct (String.eqb_spec s ""); [contradiction | reflexivity].
Qed.

Lemma or_str_nonempty (s d : string) : s <> "" -> or_str (Some s) d = s.
Proof.
  intros Hs. unfold or_str, truthy.
  destruct (String.eqb_spec s ""); [contradiction | reflexivity].
Qed.

Lemma length_append (a b : string) :
  String.length (a ++ b) = String.length a + String.length b.
Proof. induction a as [|c a IH]; cbn; [reflexivity | now rewrite IH]. Qed.

Lemma worker_lines (lib : library) tempdir uuid out :
  match fst (run_worker lib tempdir uuid out) with
  | Ok _ =>
      exists names,
        stdout (snd (run_worker lib tempdir uuid out))
          = out ++ [names; VStr "Worker done"]
  | Err _ =>
      stdout (snd (run_worker lib tempdir uuid out)) = out \/
      exists names,
        stdout (snd (run_worker lib tempdir uuid out)) = out ++ [names]
  end.
Proof.
  worker_runs lib tempdir uuid out rv n e Hn; cbn [fst snd stdout].
  - exists (rv 25). now rewrite <- app_assoc.
  - clear Hraise.
    each_abort n ltac:(first
      [ left; reflexivity | right; exists (rv 25); reflexivity ]).
Qed.

(** X5: an empty MULTIPROCESSING_START_METHOD is the same as none.  Two
    environments that agree on every other variable, and in which the
    start-method variable is equal, or is unset in one and empty in the
    other, give the same launch. *)
Theorem empty_start_method_is_unset (plat : platform)
  (environ1 environ2 : string -> option string) (lib : library) tempdir uuid :
  (forall name, name <> start_method_variable -> environ1 name = environ2 name) ->
  or_none (environ1 start_method_variable)
    = or_none (environ2 start_method_variable) ->
  main plat environ1 lib tempdir uuid fresh_host
    = main plat environ2 lib tempdir uuid fresh_host.
Proof.
  intros _ H. rewrite !main_run. unfold notice. rewrite H. reflexivity.
Qed.

Lemma environ_with_elsewhere (v1 v2 : option string) (name : string) :
  name <> start_method_variable -> environ_with v1 name = environ_with v2 name.
Proof.
  intros Hne. unfold environ_with.
  destruct (String.eqb_spec name start_method_variable);
    [contradiction | reflexivity].
Qed.

Lemma empty_start_method_is_unset_witness :
  or_none (environ_with (Some "") start_method_variable)
    = or_none (environ_with None start_method_variable) /\
  main macos (environ_with (Some "")) obliging "/tmp" uuid0 fresh_host
    = main macos (environ_with None) obliging "/tmp" uuid0 fresh_host.
Proof.
  assert (H : or_none (environ_with (Some "") start_method_variable)
              = or_none (environ_with None start_method_variable))
    by (vm_compute; reflexivity).
  split; [exact H|].
  apply (empty_start_method_is_unset macos _ _ obliging "/tmp" uuid0
           (environ_with_elsewhere (Some "") None) H).
Defined.

(** X6: the "(default)" mark tells that the variable was not set, not which
    method is used.  When the variable names the platform's default method
    explicitly, the process is created with the same context as when the
    variable is unset, but the first line printed is the bare name, which
    differs from the line printed when the variable is unset. *)
Theorem explicit_default_is_not_marked (plat : platform) environ
  (lib : library) tempdir uuid :
  environ start_method_variable = Some (default_method plat) ->
  default_method plat <> "" ->
  In (default_method plat) (concrete_contexts plat) ->
  map pcontext
    (processes (snd (main plat environ lib tempdir uuid fresh_host)))
    = map pcontext
        (processes (snd (main plat (environ_with None) lib tempdir uuid
                           fresh_host))) /\
  hd_error (console (snd (main plat environ lib tempdir uuid fresh_host)))
    = Some (VStr ("Using start method " ++ default_method plat)) /\
  hd_error (console (snd (main plat environ lib tempdir uuid fresh_host)))
    <> hd_error
         (console (snd (main plat (environ_with None) lib tempdir uuid
                          fresh_host))).
Proof.
  intros Hv Hne Hin.
  assert (Hctx : get_context plat (Some (default_method plat))
                 = Ok (Context (default_method plat))).
  { unfold get_context.
    destruct (existsb _ _) eqn:Hex; [reflexivity|].
    assert (Ht : existsb (String.eqb (default_method plat))
                   (concrete_contexts plat) = true).
    { apply existsb_exists. exists (default_method plat).
      split; [exact Hin | apply String.eqb_refl]. }
    congruence. }
  rewrite !main_first_line, !main_run, Hv.
  rewrite (or_none_nonempty _ Hne), Hctx.
  unfold notice, get_start_method.
  rewrite (or_none_nonempty _ Hne), (or_str_nonempty _ _ Hne).
  change (environ_with None start_method_variable) with (@None string).
  cbn [or_none truthy or_str get_context snd processes map pcontext].
  split; [reflexivity|]. split; [reflexivity|].
  intros H. inversion H as [Hs].
  apply (f_equal String.length) in Hs.
  rewrite !length_append in Hs. cbn in Hs. lia.
Qed.

Lemma explicit_default_is_not_marked_witness :
  hd_error (console (snd (main macos (environ_with (Some "spawn")) obliging
                            "/tmp" uuid0 fresh_host)))
    = Some (VStr "Using start method spawn") /\
  hd_error (console (snd (main macos (environ_with None) obliging
                            "/tmp" uuid0 fresh_host)))
    = Some (VStr "Using start method spawn (default)").
Proof.
  assert (Hv : environ_with (Some "spawn") start_method_variable
               = Some (default_method macos)) by reflexivity.
  assert (Hne : default_method macos <> "") by discriminate.
  assert (Hin : In (default_method macos) (concrete_contexts macos))
    by (right; left; reflexivity).
  destruct (explicit_default_is_not_marked macos (environ_with (Some "spawn"))
              obliging "/tmp" uuid0 Hv Hne Hin) as (_ & H & _).
  split; [exact H | apply main_first_line].
Defined.

(** X7: the transcript of a launch.  Once the process context exists, the
    console holds the notice, then the worker's lines, then "All done!".
    When the worker returned normally its lines are the skim names and
    "Worker done"; when the worker ended with an exception "Worker done" is
    missing (the names may or may not have been printed) and "All done!" is
    printed all the same. *)
Theorem launch_transcript (plat : platform) environ (lib : library)
  tempdir uuid ctx :
  get_context plat (or_none (environ start_method_variable)) = Ok ctx ->
  match fst (run_worker lib tempdir uuid
               [notice plat (environ start_method_variable)]) with
  | Ok _ =>
      exists names,
        console (snd (main plat environ lib tempdir uuid fresh_host))
          = [ notice plat (environ start_method_variable); names;
              VStr "Worker done"; VStr "All done!" ]
  | Err _ =>
      console (snd (main plat environ lib tempdir uuid fresh_host))
        = [ notice plat (environ start_method_variable); VStr "All done!" ] \/
      exists names,
        console (snd (main plat environ lib tempdir uuid fresh_host))
          = [ notice plat (environ start_method_variable); names;
              VStr "All done!" ]
  end.
Proof.
  intros Hctx. rewrite main_run, Hctx. cbn zeta.
  pose proof (worker_lines lib tempdir uuid
                [notice plat (environ start_method_variable)]) as Hl.
  destruct (run_worker lib tempdir uuid
              [notice plat (environ start_method_variable)]) as [[[]|e] w];
    cbn [fst snd console] in *.
  - destruct Hl as [names ->]. exists names. reflexivity.
  - destruct Hl as [-> | [names ->]]; [left | right; exists names]; reflexivity.
Qed.

Lemma launch_transcript_witness :
  get_context macos (or_none (environ_with (Some "fork") start_method_variable))
    = Ok (Context "fork") /\
  console (snd (main macos (environ_with (Some "fork"))
                  (raising_at 26 disk_full) "/tmp" uuid0 fresh_host))
    = [ VStr "Using start method fork"; VObj 25; VStr "All done!" ].
Proof.
  assert (H : get_context macos
                (or_none (environ_with (Some "fork") start_method_variable))
              = Ok (Context "fork")) by (vm_compute; reflexivity).
  split; [exact H|].
  pose proof (launch_transcript macos (environ_with (Some "fork"))
                (raising_at 26 disk_full) "/tmp" uuid0 (Context "fork") H) as T.
  assert (E : fst (run_worker (raising_at 26 disk_full) "/tmp" uuid0
                     [notice macos (environ_with (Some "fork") start_method_variable)])
              = Err disk_full) by (vm_compute; reflexivity).
  rewrite E in T.
  destruct T as [T | [names T]]; rewrite T.
  - exfalso. revert T. vm_compute. discriminate.
  - revert T. vm_compute. intros T. inversion T. reflexivity.
Defined.
